(** * flask.templating: the bridge between the application and the template engine

    A shallow embedding of [src/flask/templating.py]: the default context
    processor, the environment wrapper, the dispatching loader and the two
    render functions, followed by the properties of the specification that
    were checked against them.

    Conventions of the embedding.
    - A Python dictionary is a [gmap string _]; a Python [set] is a [gset].
    - Code that raises returns in the monad [M], which also records, in
      order, the calls made to the outside world (loaders, the diagnostic
      reporter, signal receivers, the engine's [render]).
    - A loader follows the engine's loader protocol: [get_source] either
      returns a source or raises [TemplateNotFound]; the latter is [None].
      The [environment] argument of [get_source] is handed through to every
      loader untouched by the code, so the loaders of the model are closed
      over it. *)

From stdpp Require Import gmap strings list.

Set Default Proof Using "Type".

(** ** Data model *)

Section Templating.

(** [V]: values of template variables.  [Source]: what a loader returns for
    a name (source text, file name, up-to-date check).  [Template]: a
    compiled template of the engine. *)
Context {V Source Template : Type}.

Record Loader := mkLoader {
  get_source : string -> option Source;
  loader_deck_templates : list string
}.

Record Blueprint := mkBlueprint {
  bp_name : string;
  bp_jinja_loader : option Loader
}.

(** The application, as far as this module reads it: [app.jinja_loader],
    [app.iter_blueprints()] (the registered blueprints, in registration
    order) and [app.config['EXPLAIN_TEMPLATE_LOADING']]. *)
Record App := mkApp {
  jinja_loader : option Loader;
  iter_blueprints : list Blueprint;
  EXPLAIN_TEMPLATE_LOADING : bool
}.

Record AppContext := mkAppContext {
  ctx_app : App;
  ctx_g : V
}.

Record RequestContext := mkRequestContext {
  ctx_request : V;
  ctx_session : V
}.

(** The objects a local variable named [context] can be bound to in the
    render functions: the keyword dictionary, an application context, or
    [None] (the top of an empty context stack). *)
Inductive pyobj :=
  | PyNone
  | PyDict (d : gmap string V)
  | PyAppContext (c : AppContext).

(** The object a candidate loader belongs to ([srcobj] in the source). *)
Inductive srcobj :=
  | SrcApp (a : App)
  | SrcBlueprint (b : Blueprint).

(** One entry of [attempts]: the tuple [(loader, srcobj, rv)]. *)
Definition attempt : Type := Loader * srcobj * option Source.

Inductive signal := before_render_template | template_rendered.

Inductive exn :=
  | TemplateNotFound (name : string)
  | TemplatesNotFound (names : list string)
  | AttributeError
  | TypeError
  | NameError (name : string).

(** Calls that leave this module, in the order they are made. *)
Inductive event :=
  | EvGetSource (l : Loader) (template : string)
  | EvExplain (a : App) (template : string) (attempts : list attempt)
  | EvSend (sig : signal) (receiver : string) (sender : App)
      (template : Template) (context : pyobj)
  | EvRender (template : Template) (context : pyobj).

(** ** The monad of traces and exceptions *)

Definition M (A : Type) : Type := list event * (exn + A).

Definition ret {A} (x : A) : M A := ([], inr x).
Definition raise {A} (e : exn) : M A := ([], inl e).
Definition tell (ev : event) : M unit := ([ev], inr tt).

Definition bind {A B} (m : M A) (k : A -> M B) : M B :=
  match m with
  | (tr, inl e) => (tr, inl e)
  | (tr, inr x) => let '(tr', r) := k x in (tr ++ tr', r)
  end.

Definition trace {A} (m : M A) : list event := fst m.
Definition outcome {A} (m : M A) : exn + A := snd m.

(** [try: body except TemplateNotFound: handler]; [TemplatesNotFound] is a
    subclass of [TemplateNotFound] in the engine. *)
Definition is_not_found (e : exn) : bool :=
  match e with
  | TemplateNotFound _ | TemplatesNotFound _ => true
  | _ => false
  end.

Definition try_not_found {A} (m : M A) (handler : M A) : M A :=
  match m with
  | (tr, inl e) =>
      if is_not_found e then let '(tr', r) := handler in (tr ++ tr', r)
      else (tr, inl e)
  | (tr, inr x) => (tr, inr x)
  end.

Notation "x <- m ;; k" := (bind m (fun x => k))
  (at level 100, m at next level, right associativity).
Notation "m ;;; k" := (bind m (fun _ => k))
  (at level 100, right associativity).

(** ** DispatchingJinjaLoader *)

(** [_iter_loaders]: the application's loader when it is not [None], then
    the loader of each blueprint, in the order of [iter_blueprints], when it
    is not [None]. *)
Fixpoint blueprint_loaders (bps : list Blueprint) : list (srcobj * Loader) :=
  match bps with
  | [] => []
  | blueprint :: rest =>
      match bp_jinja_loader blueprint with
      | Some loader => (SrcBlueprint blueprint, loader) :: blueprint_loaders rest
      | None => blueprint_loaders rest
      end
  end.

Definition _iter_loaders (a : App) (template : string)
  : list (srcobj * Loader) :=
  match jinja_loader a with
  | Some loader => [(SrcApp a, loader)]
  | None => []
  end ++ blueprint_loaders (iter_blueprints a).

(** [loader.get_source(environment, template)], recorded in the trace. *)
Definition call_get_source (loader : Loader) (template : string)
  : M (option Source) :=
  tell (EvGetSource loader template) ;;; ret (get_source loader template).

(** The loop of [_get_source_fast]. *)
Fixpoint fast_loop (template : string) (loaders : list (srcobj * Loader))
  : M Source :=
  match loaders with
  | [] => raise (TemplateNotFound template)
  | (_, loader) :: rest =>
      r <- call_get_source loader template ;;
      match r with
      | Some rv => ret rv
      | None => fast_loop template rest
      end
  end.

Definition _get_source_fast (a : App) (template : string) : M Source :=
  fast_loop template (_iter_loaders a template).

(** The loop of [_get_source_explained], threading [attempts] and [trv]. *)
Fixpoint explained_loop (template : string)
    (loaders : list (srcobj * Loader))
    (attempts : list attempt) (trv : option Source)
  : M (list attempt * option Source) :=
  match loaders with
  | [] => ret (attempts, trv)
  | (src, loader) :: rest =>
      rv <- call_get_source loader template ;;
      let trv' :=
        match rv, trv with
        | Some s, None => Some s
        | _, _ => trv
        end in
      explained_loop template rest (attempts ++ [(loader, src, rv)]) trv'
  end.

(** [explain_template_loading_attempts] lives in [flask/debughelpers.py]; a
    call to it is the event [EvExplain]. *)
Definition explain_template_loading_attempts (a : App) (template : string)
    (attempts : list attempt) : M unit :=
  tell (EvExplain a template attempts).

Definition _get_source_explained (a : App) (template : string) : M Source :=
  st <- explained_loop template (_iter_loaders a template) [] None ;;
  explain_template_loading_attempts a template st.1 ;;;
  match st.2 with
  | Some trv => ret trv
  | None => raise (TemplateNotFound template)
  end.

Definition DispatchingJinjaLoader_get_source (a : App) (template : string)
  : M Source :=
  if EXPLAIN_TEMPLATE_LOADING a
  then _get_source_explained a template
  else _get_source_fast a template.

(** The name [deck] in [return deck(result)] is bound nowhere: the module
    does not import it, does not define it, and it is not a builtin.
    Evaluating the name raises [NameError], whatever the set is. *)
Definition deck (s : gset string) : exn + list string :=
  inl (NameError "deck").

(** The loop of [deck_templates] over the blueprints: [result.add] for each
    name of each blueprint loader. *)
Fixpoint deck_loop (bps : list Blueprint) (result : gset string)
  : gset string :=
  match bps with
  | [] => result
  | blueprint :: rest =>
      match bp_jinja_loader blueprint with
      | Some loader =>
          deck_loop rest
            (foldl (fun acc template => acc ∪ {[template]}) result
               (loader_deck_templates loader))
      | None => deck_loop rest result
      end
  end.

(** The set [result] of [deck_templates] as it is when the [return]
    statement is reached. *)
Definition deck_templates_result (a : App) : gset string :=
  let result : gset string := ∅ in
  let result :=
    match jinja_loader a with
    | Some loader => result ∪ list_to_set (loader_deck_templates loader)
    | None => result
    end in
  deck_loop (iter_blueprints a) result.

Definition deck_templates (a : App) : exn + list string :=
  let result := deck_templates_result a in
  deck result.

(** ** Environment *)

(** The loader of an environment: the dispatching loader of an application,
    or any other loader of the engine. *)
Inductive EnvLoader :=
  | DispatchingJinjaLoader (a : App)
  | OtherLoader (l : Loader).

(** The value of a keyword option of the environment's constructor. *)
Inductive optval :=
  | OptLoader (l : EnvLoader)
  | OptNone
  | OptValue (v : V).

(** An environment: the options it was constructed with (the engine keeps
    each as an attribute; a missing [loader] is the engine's default,
    [None]) and the [app] attribute the wrapper adds. *)
Record Environment := mkEnvironment {
  env_options : gmap string optval;
  env_app : option App
}.

(** [BaseEnvironment.__init__(self, **options)]: the engine's standard
    construction. *)
Definition BaseEnvironment_init (options : gmap string optval) : Environment :=
  {| env_options := options; env_app := None |}.

(** Modelled from the spec: [Flask.create_global_jinja_loader]
    is defined in flask/app.py, outside this module; by the spec the wrapper
    installs the composite loader scoped to the owning application. *)
Definition create_global_jinja_loader (a : App) : EnvLoader :=
  DispatchingJinjaLoader a.

Definition Environment_init (a : App) (options : gmap string optval)
  : Environment :=
  let options :=
    match options !! "loader" with
    | None => <["loader" := OptLoader (create_global_jinja_loader a)]> options
    | Some _ => options
    end in
  let self := BaseEnvironment_init options in
  {| env_options := env_options self; env_app := Some a |}.

Definition env_loader (e : Environment) : option optval :=
  env_options e !! "loader".

(** Modelled from the spec: [Flask.jinja_env] is defined in flask/app.py,
    outside this module; by the spec the application's environment is the
    wrapper configured with the composite loader, that is, constructed for
    the application without an explicit loader. *)
Definition jinja_env (a : App) : Environment := Environment_init a ∅.

(** ** The template engine and the host framework *)

(** The engine: compiling a loaded source under a name, compiling a literal
    source string, and executing a template against a context object. *)
Variable compile : string -> Source -> Template.
Variable from_string : string -> Template.
Variable render : Template -> pyobj -> string.

(** What [update_template_context] does, in place, to an object that is not
    a dictionary; the spec describes the update on dictionaries only. *)
Variable update_other : App -> AppContext -> AppContext.

(** The module-level state the code reads: the tops of the two context
    stacks and the receivers connected to each signal, in the order they
    were connected. *)
Record Globals := mkGlobals {
  _app_context_stack_top : option AppContext;
  _request_context_stack_top : option RequestContext;
  receivers : signal -> list string
}.

Definition _default_template_context_processor (G : Globals)
  : gmap string V :=
  let reqcontext := _request_context_stack_top G in
  let appcontext := _app_context_stack_top G in
  let rv : gmap string V := ∅ in
  let rv :=
    match appcontext with
    | Some ac => <["g" := ctx_g ac]> rv
    | None => rv
    end in
  let rv :=
    match reqcontext with
    | Some rc =>
        <["session" := ctx_session rc]> (<["request" := ctx_request rc]> rv)
    | None => rv
    end in
  rv.

(** Modelled from the spec: [Flask.update_template_context] is defined in
    flask/app.py, outside this module.  By the spec it merges the injected
    default variables into the dictionary it is given, the values already
    in the dictionary winning on a collision.  The update is in place: the
    result is the object as it is after the call. *)
Definition update_template_context (G : Globals) (a : App) (context : pyobj)
  : pyobj :=
  match context with
  | PyDict d => PyDict (d ∪ _default_template_context_processor G)
  | PyAppContext c => PyAppContext (update_other a c)
  | PyNone => PyNone
  end.

(** [_app_context_stack.top] as a Python object. *)
Definition app_context_stack_top (G : Globals) : pyobj :=
  match _app_context_stack_top G with
  | Some c => PyAppContext c
  | None => PyNone
  end.

(** The attribute access [context.app]. *)
Definition getattr_app (context : pyobj) : M App :=
  match context with
  | PyAppContext c => ret (ctx_app c)
  | _ => raise AttributeError
  end.

(** Modelled from the spec: [send] of a signal is defined in
    flask/signals.py and the signalling library, outside this module; by
    the spec the notification is delivered synchronously to the registered
    observers in registration order. *)
Definition send (G : Globals) (sig : signal) (sender : App)
    (template : Template) (context : pyobj) : M unit :=
  ((fun receiver => EvSend sig receiver sender template context)
     <$> receivers G sig,
   inr tt).

Definition call_render (template : Template) (context : pyobj) : M string :=
  tell (EvRender template context) ;;; ret (render template context).

(** Modelled from the spec: [get_or_select_template], with the
    [get_template] and [select_template] it dispatches to, belongs to the
    template engine, outside this module.  By the spec a
    template is found by name through the environment's loader, and for an
    ordered list of candidate names the first resolvable one wins, with
    template-not-found raised when none resolves.  An environment without a
    loader cannot look anything up. *)
Definition loader_load (l : EnvLoader) (name : string) : M Template :=
  match l with
  | DispatchingJinjaLoader a =>
      src <- DispatchingJinjaLoader_get_source a name ;;
      ret (compile name src)
  | OtherLoader l =>
      r <- call_get_source l name ;;
      match r with
      | Some src => ret (compile name src)
      | None => raise (TemplateNotFound name)
      end
  end.

Definition get_template (e : Environment) (name : string) : M Template :=
  match env_loader e with
  | Some (OptLoader l) => loader_load l name
  | Some (OptValue _) => raise AttributeError
  | Some OptNone | None => raise TypeError
  end.

(** The loop of [select_template]: the first name that loads;
    [TemplatesNotFound], for the whole list, when none does. *)
Fixpoint select_loop (e : Environment) (all names : list string)
  : M Template :=
  match names with
  | [] => raise (TemplatesNotFound all)
  | name :: rest =>
      try_not_found (get_template e name) (select_loop e all rest)
  end.

Definition select_template (e : Environment) (names : list string)
  : M Template :=
  select_loop e names names.

(** The argument [template_name_or_deck]: one name, or an iterable of
    names. *)
Inductive name_or_deck :=
  | Name (name : string)
  | Deck (names : list string).

Definition get_or_select_template (e : Environment)
    (template_name_or_deck : name_or_deck) : M Template :=
  match template_name_or_deck with
  | Name name => get_template e name
  | Deck names => select_template e names
  end.

(** ** The render functions *)

Definition _render (G : Globals) (template : Template) (context : pyobj)
    (app : App) : M string :=
  send G before_render_template app template context ;;;
  rv <- call_render template context ;;
  send G template_rendered app template context ;;;
  ret rv.

(** Line by line.  The keyword arguments arrive as the dictionary
    [context]; the first statement rebinds the name [context] to the top of
    the application context stack, and every later use of [context] reads
    that object. *)
Definition render_template (G : Globals)
    (template_name_or_deck : name_or_deck) (context : gmap string V)
  : M string :=
  let context := PyDict context in
  let context := app_context_stack_top G in
  app <- getattr_app context ;;
  let context := update_template_context G app context in
  app <- getattr_app context ;;
  template <- get_or_select_template (jinja_env app) template_name_or_deck ;;
  app <- getattr_app context ;;
  _render G template context app.

Definition render_template_string (G : Globals) (source : string)
    (context : gmap string V) : M string :=
  let context := PyDict context in
  let context := app_context_stack_top G in
  app <- getattr_app context ;;
  let context := update_template_context G app context in
  app <- getattr_app context ;;
  let template := from_string source in
  app <- getattr_app context ;;
  _render G template context app.

(** ** Notions of the specification *)

(** The specification's reading of a lookup: the first successful
    resolution among the candidates, in their order. *)
Definition first_resolved (template : string)
    (loaders : list (srcobj * Loader)) : option Source :=
  head (omap (fun c => get_source c.2 template) loaders).

(** The candidates in the specification's words: the application's loader
    if present, then each blueprint's loader, in registration order, if
    present. *)
Definition candidates_spec (a : App) : list (srcobj * Loader) :=
  option_list (pair (SrcApp a) <$> jinja_loader a) ++
  omap (fun bp => pair (SrcBlueprint bp) <$> bp_jinja_loader bp)
    (iter_blueprints a).

Definition unresolved (template : string) (c : srcobj * Loader) : Prop :=
  get_source c.2 template = None.

Definition get_source_events (template : string)
    (loaders : list (srcobj * Loader)) : list event :=
  (fun c => EvGetSource c.2 template) <$> loaders.

(** The entry of [attempts] the diagnostic path records for a candidate. *)
Definition attempt_of (template : string) (c : srcobj * Loader) : attempt :=
  (c.2, c.1, get_source c.2 template).

(** The application with the diagnostic flag set to [b]. *)
Definition set_explain (b : bool) (a : App) : App :=
  {| jinja_loader := jinja_loader a;
     iter_blueprints := iter_blueprints a;
     EXPLAIN_TEMPLATE_LOADING := b |}.

(** The application context as [update_template_context] leaves it. *)
Definition updated (c : AppContext) : AppContext :=
  update_other (ctx_app c) c.

(** A name that no candidate loader of the application resolves. *)
Definition missing (a : App) (name : string) : Prop :=
  Forall (unresolved name) (_iter_loaders a name).

(** The events of one signal: a delivery to each receiver, in the order
    the receivers were connected. *)
Definition notifications (G : Globals) (sig : signal) (app : App)
    (template : Template) (context : pyobj) : list event :=
  (fun receiver => EvSend sig receiver app template context)
    <$> receivers G sig.

(** A render between its two notifications. *)
Definition bracketed_render (G : Globals) (app : App) (template : Template)
    (context : pyobj) : list event :=
  notifications G before_render_template app template context ++
  EvRender template context ::
  notifications G template_rendered app template context.

(** Events of a template lookup: neither a render nor a notification. *)
Definition is_lookup_event (ev : event) : Prop :=
  match ev with
  | EvGetSource _ _ | EvExplain _ _ _ => True
  | _ => False
  end.

(** ** Resolution through the candidate loaders *)

Lemma first_resolved_nil template : first_resolved template [] = None.
Proof. reflexivity. Qed.

Lemma first_resolved_cons template src loader rest :
  first_resolved template ((src, loader) :: rest) =
  match get_source loader template with
  | Some s => Some s
  | None => first_resolved template rest
  end.
Proof.
  unfold first_resolved. simpl. by destruct (get_source loader template).
Qed.

Lemma first_resolved_None template loaders :
  first_resolved template loaders = None <->
  Forall (unresolved template) loaders.
Proof.
  induction loaders as [|[src loader] rest IH].
  - split; [constructor | reflexivity].
  - rewrite first_resolved_cons, Forall_cons. unfold unresolved at 1. simpl.
    destruct (get_source loader template) as [s|].
    + split; [discriminate | intros [? _]; discriminate].
    + rewrite IH. split; [by intros; split | by intros [_ ?]].
Qed.

Lemma first_resolved_split template pre c post s :
  Forall (unresolved template) pre ->
  get_source c.2 template = Some s ->
  first_resolved template (pre ++ c :: post) = Some s.
Proof.
  intros Hpre Hc. induction Hpre as [|[src loader] pre Hx _ IH]; simpl.
  - destruct c as [src loader]. rewrite first_resolved_cons.
    simpl in Hc. by rewrite Hc.
  - rewrite first_resolved_cons. unfold unresolved in Hx. simpl in Hx.
    by rewrite Hx.
Qed.

Lemma first_resolved_Some template loaders s :
  first_resolved template loaders = Some s ->
  exists pre c post,
    loaders = pre ++ c :: post /\
    Forall (unresolved template) pre /\
    get_source c.2 template = Some s.
Proof.
  induction loaders as [|[src loader] rest IH]; [discriminate|].
  rewrite first_resolved_cons.
  destruct (get_source loader template) as [s'|] eqn:E.
  - intros [= ->]. exists [], (src, loader), rest. by repeat split.
  - intros H. destruct (IH H) as (pre & c & post & -> & Hpre & Hc).
    exists ((src, loader) :: pre), c, post. repeat split; [|done].
    by constructor.
Qed.

Lemma iter_loaders_spec a template :
  _iter_loaders a template = candidates_spec a.
Proof.
  unfold _iter_loaders, candidates_spec. f_equal.
  - by destruct (jinja_loader a).
  - induction (iter_blueprints a) as [|bp bps IH]; [done|].
    simpl. destruct (bp_jinja_loader bp); simpl; by rewrite IH.
Qed.

Lemma iter_loaders_set_explain b a template :
  (fun c => c.2) <$> _iter_loaders (set_explain b a) template =
  (fun c => c.2) <$> _iter_loaders a template.
Proof.
  unfold _iter_loaders. simpl. rewrite !fmap_app. f_equal.
  by destruct (jinja_loader a).
Qed.

Lemma first_resolved_loaders template l1 l2 :
  (fun c : srcobj * Loader => c.2) <$> l1 = (fun c => c.2) <$> l2 ->
  first_resolved template l1 = first_resolved template l2.
Proof.
  revert l2. induction l1 as [|[s1 x1] l1 IH]; intros [|[s2 x2] l2] H;
    try discriminate; [done|].
  simpl in H. injection H as -> H. rewrite !first_resolved_cons.
  by rewrite (IH _ H).
Qed.

(** *** The fast path *)

Lemma fast_loop_outcome template loaders :
  outcome (fast_loop template loaders) =
  match first_resolved template loaders with
  | Some s => inr s
  | None => inl (TemplateNotFound template)
  end.
Proof.
  induction loaders as [|[src loader] rest IH]; [done|].
  rewrite first_resolved_cons. simpl.
  destruct (get_source loader template) as [s|]; [done|].
  unfold outcome in IH. simpl.
  destruct (fast_loop template rest) as [tr r]. simpl in *. by rewrite IH.
Qed.

Lemma fast_loop_first template pre c post s :
  Forall (unresolved template) pre ->
  get_source c.2 template = Some s ->
  fast_loop template (pre ++ c :: post) =
  (get_source_events template (pre ++ [c]), inr s).
Proof.
  intros Hpre Hc. induction Hpre as [|[src loader] pre Hx _ IH]; simpl.
  - destruct c as [src loader]. simpl in Hc. by rewrite Hc.
  - unfold unresolved in Hx. simpl in Hx. rewrite Hx, IH. done.
Qed.

Lemma fast_loop_all_fail template loaders :
  Forall (unresolved template) loaders ->
  fast_loop template loaders =
  (get_source_events template loaders, inl (TemplateNotFound template)).
Proof.
  induction 1 as [|[src loader] rest Hx _ IH]; [done|].
  simpl. unfold unresolved in Hx. simpl in Hx. rewrite Hx, IH. done.
Qed.

(** *** The diagnostic path *)

Lemma explained_loop_run template loaders attempts trv :
  explained_loop template loaders attempts trv =
  (get_source_events template loaders,
   inr (attempts ++ (attempt_of template <$> loaders),
        match trv with
        | Some s => Some s
        | None => first_resolved template loaders
        end)).
Proof.
  revert attempts trv.
  induction loaders as [|[src loader] rest IH]; intros attempts trv.
  - simpl. rewrite app_nil_r. by destruct trv.
  - simpl. rewrite IH, first_resolved_cons. simpl.
    rewrite <- app_assoc. simpl. unfold attempt_of at 2. simpl.
    by destruct (get_source loader template), trv.
Qed.

Lemma get_source_explained_run a template :
  _get_source_explained a template =
  (get_source_events template (_iter_loaders a template) ++
   [EvExplain a template (attempt_of template <$> _iter_loaders a template)],
   match first_resolved template (_iter_loaders a template) with
   | Some s => inr s
   | None => inl (TemplateNotFound template)
   end).
Proof.
  unfold _get_source_explained. rewrite explained_loop_run. simpl.
  by destruct (first_resolved template (_iter_loaders a template)).
Qed.

Lemma get_source_outcome a template :
  outcome (DispatchingJinjaLoader_get_source a template) =
  match first_resolved template (_iter_loaders a template) with
  | Some s => inr s
  | None => inl (TemplateNotFound template)
  end.
Proof.
  unfold DispatchingJinjaLoader_get_source.
  destruct (EXPLAIN_TEMPLATE_LOADING a).
  - by rewrite get_source_explained_run.
  - apply fast_loop_outcome.
Qed.

Lemma blueprint_loaders_app bps1 bps2 :
  blueprint_loaders (bps1 ++ bps2) =
  blueprint_loaders bps1 ++ blueprint_loaders bps2.
Proof.
  induction bps1 as [|bp bps1 IH]; [done|].
  simpl. destruct (bp_jinja_loader bp); simpl; by rewrite IH.
Qed.

Lemma blueprint_loaders_unresolved template bps :
  Forall (fun b => forall l, bp_jinja_loader b = Some l ->
                             get_source l template = None) bps ->
  Forall (unresolved template) (blueprint_loaders bps).
Proof.
  induction 1 as [|bp bps Hbp _ IH]; simpl; [constructor|].
  destruct (bp_jinja_loader bp) as [l|] eqn:E; [|done].
  constructor; [|done]. unfold unresolved. simpl. by apply Hbp.
Qed.

(** C2.  The candidates of a lookup are the application's loader, when it
    is not [None], followed by the loaders of the blueprints in registration
    order, those that are [None] left out.  The fast path asks the
    candidates in that order and returns the first successful resolution
    without asking any later candidate; so the application's template wins
    over every blueprint's, and an earlier blueprint's over a later one's. *)
Theorem iter_loaders_order_first_wins (a : App) (template : string) :
  _iter_loaders a template = candidates_spec a /\
  (forall pre c post s,
     _iter_loaders a template = pre ++ c :: post ->
     Forall (unresolved template) pre ->
     get_source c.2 template = Some s ->
     _get_source_fast a template =
       (get_source_events template (pre ++ [c]), inr s)) /\
  (forall loader s,
     jinja_loader a = Some loader ->
     get_source loader template = Some s ->
     outcome (_get_source_fast a template) = inr s) /\
  (forall bps1 bp loader bps2 s,
     (forall l, jinja_loader a = Some l -> get_source l template = None) ->
     iter_blueprints a = bps1 ++ bp :: bps2 ->
     Forall (fun b => forall l, bp_jinja_loader b = Some l ->
                                get_source l template = None) bps1 ->
     bp_jinja_loader bp = Some loader ->
     get_source loader template = Some s ->
     outcome (_get_source_fast a template) = inr s).
Proof.
  split; [apply iter_loaders_spec|]. split; [|split].
  - intros pre c post s Heq Hpre Hc. unfold _get_source_fast.
    rewrite Heq. by apply fast_loop_first.
  - intros loader s Hl Hs. unfold _get_source_fast, _iter_loaders.
    rewrite Hl. simpl. by rewrite Hs.
  - intros bps1 bp loader bps2 s Happ Hbps Hbps1 Hbp Hs.
    unfold _get_source_fast, _iter_loaders.
    rewrite Hbps, blueprint_loaders_app. simpl. rewrite Hbp.
    rewrite app_assoc.
    rewrite (fast_loop_first template _ (SrcBlueprint bp, loader) _ s);
      [done| |done].
    apply Forall_app. split.
    + destruct (jinja_loader a) as [l|]; [|constructor].
      repeat constructor. unfold unresolved. simpl. by apply Happ.
    + by apply blueprint_loaders_unresolved.
Qed.

(** The scan of the diagnostic path, whatever the flag: [get_source] is
    called on every candidate, in order, then the reporter once, with one
    attempt per candidate; the result is the first success of the scan. *)
Lemma get_source_explained_scan (a : App) (template : string) :
  trace (_get_source_explained a template) =
    get_source_events template (_iter_loaders a template) ++
    [EvExplain a template (attempt_of template <$> _iter_loaders a template)] /\
  length (attempt_of template <$> _iter_loaders a template) =
    length (_iter_loaders a template) /\
  (forall i c,
     _iter_loaders a template !! i = Some c ->
     (attempt_of template <$> _iter_loaders a template) !! i =
       Some (c.2, c.1, get_source c.2 template)) /\
  (forall pre c post s,
     _iter_loaders a template = pre ++ c :: post ->
     Forall (unresolved template) pre ->
     get_source c.2 template = Some s ->
     outcome (_get_source_explained a template) = inr s) /\
  (Forall (unresolved template) (_iter_loaders a template) ->
     outcome (_get_source_explained a template) =
       inl (TemplateNotFound template) /\
     Forall (fun at_ : attempt => at_.2 = None)
       (attempt_of template <$> _iter_loaders a template)).
Proof.
  rewrite get_source_explained_run. simpl.
  split; [done|]. split; [by rewrite length_fmap|]. split; [|split].
  - intros i c Hi. by rewrite list_lookup_fmap, Hi.
  - intros pre c post s Heq Hpre Hc.
    rewrite Heq at 1. by rewrite (first_resolved_split _ _ _ _ s).
  - intros Hall. split.
    + apply first_resolved_None in Hall. by rewrite Hall.
    + apply Forall_fmap. eapply Forall_impl; [exact Hall|]. done.
Qed.

(** With the flag off, a lookup through the dispatching loader is the fast
    path, and the reporter is not called. *)
Lemma get_source_flag_off (a : App) (template : string) :
  EXPLAIN_TEMPLATE_LOADING a = false ->
  DispatchingJinjaLoader_get_source a template = _get_source_fast a template.
Proof. unfold DispatchingJinjaLoader_get_source. by intros ->. Qed.

(** C3.  When [EXPLAIN_TEMPLATE_LOADING] is set, a lookup through the
    dispatching loader takes the diagnostic path: it calls [get_source] on
    every candidate, in order, whatever the earlier candidates returned;
    it then calls the reporter once, with one attempt per candidate holding
    the loader, the owning object and the outcome ([None] for a failure).
    Only after the reporter call does it return the first successful
    result of the scan, or raise [TemplateNotFound] when every attempt
    failed. *)
Theorem get_source_explained_attempts (a : App) (template : string) :
  EXPLAIN_TEMPLATE_LOADING a = true ->
  DispatchingJinjaLoader_get_source a template =
    _get_source_explained a template /\
  trace (DispatchingJinjaLoader_get_source a template) =
    get_source_events template (_iter_loaders a template) ++
    [EvExplain a template (attempt_of template <$> _iter_loaders a template)] /\
  length (attempt_of template <$> _iter_loaders a template) =
    length (_iter_loaders a template) /\
  (forall i c,
     _iter_loaders a template !! i = Some c ->
     (attempt_of template <$> _iter_loaders a template) !! i =
       Some (c.2, c.1, get_source c.2 template)) /\
  (forall pre c post s,
     _iter_loaders a template = pre ++ c :: post ->
     Forall (unresolved template) pre ->
     get_source c.2 template = Some s ->
     outcome (DispatchingJinjaLoader_get_source a template) = inr s) /\
  (Forall (unresolved template) (_iter_loaders a template) ->
     outcome (DispatchingJinjaLoader_get_source a template) =
       inl (TemplateNotFound template) /\
     Forall (fun at_ : attempt => at_.2 = None)
       (attempt_of template <$> _iter_loaders a template)).
Proof.
  intros Hflag.
  assert (DispatchingJinjaLoader_get_source a template =
          _get_source_explained a template) as Hpath.
  { unfold DispatchingJinjaLoader_get_source. by rewrite Hflag. }
  rewrite Hpath. split; [done|]. apply get_source_explained_scan.
Qed.

(** C5.  A lookup through the dispatching loader raises
    [TemplateNotFound], for the requested name, exactly when no candidate
    resolves the name; it raises nothing else; and the two paths raise the
    same error in the same cases, so the diagnostic flag changes neither
    whether nor which error is raised. *)
Theorem get_source_not_found_iff (a : App) (template : string) :
  (outcome (DispatchingJinjaLoader_get_source a template) =
     inl (TemplateNotFound template) <->
   Forall (unresolved template) (_iter_loaders a template)) /\
  (forall e,
     outcome (DispatchingJinjaLoader_get_source a template) = inl e ->
     e = TemplateNotFound template) /\
  (forall e,
     outcome (_get_source_explained a template) = inl e <->
     outcome (_get_source_fast a template) = inl e) /\
  (forall b e,
     outcome (DispatchingJinjaLoader_get_source (set_explain b a) template)
       = inl e <->
     outcome (DispatchingJinjaLoader_get_source a template) = inl e).
Proof.
  split; [|split; [|split]].
  - rewrite get_source_outcome, <- first_resolved_None.
    destruct (first_resolved template (_iter_loaders a template));
      split; congruence.
  - intros e. rewrite get_source_outcome.
    destruct (first_resolved template (_iter_loaders a template));
      congruence.
  - intros e. unfold _get_source_fast.
    by rewrite get_source_explained_run, fast_loop_outcome.
  - intros b e. rewrite !get_source_outcome.
    by rewrite (first_resolved_loaders template _ _
                  (iter_loaders_set_explain b a template)).
Qed.

(** C10.  The fast path and the diagnostic path are the same resolution
    function: on every application and name both return the first
    successful resolution among the candidates, or both raise
    [TemplateNotFound]; the result of [get_source] is therefore the same
    for either value of the diagnostic flag. *)
Theorem get_source_fast_explained_agree (a : App) (template : string) :
  outcome (_get_source_explained a template) =
    outcome (_get_source_fast a template) /\
  outcome (_get_source_fast a template) =
    match first_resolved template (candidates_spec a) with
    | Some s => inr s
    | None => inl (TemplateNotFound template)
    end /\
  (forall b,
     outcome (DispatchingJinjaLoader_get_source (set_explain b a) template) =
     outcome (_get_source_fast a template)).
Proof.
  split; [|split].
  - unfold _get_source_fast.
    by rewrite get_source_explained_run, fast_loop_outcome.
  - unfold _get_source_fast.
    by rewrite fast_loop_outcome, iter_loaders_spec.
  - intros b. rewrite get_source_outcome. unfold _get_source_fast.
    rewrite fast_loop_outcome.
    by rewrite (first_resolved_loaders template _ _
                  (iter_loaders_set_explain b a template)).
Qed.

(** ** The listing of template names *)

Lemma elem_of_foldl_add (names : list string) (result : gset string) n :
  n ∈ foldl (fun acc template => acc ∪ {[template]}) result names <->
  n ∈ result \/ n ∈ names.
Proof.
  revert result. induction names as [|x names IH]; intros result; simpl.
  - split; [by left|]. intros [?|H]; [done|]. by apply elem_of_nil in H.
  - rewrite IH, elem_of_union, elem_of_singleton, elem_of_cons.
    split; [intros [[?|?]|?] | intros [?|[?|?]]]; auto.
Qed.

Lemma elem_of_deck_loop bps (result : gset string) n :
  n ∈ deck_loop bps result <->
  n ∈ result \/
  exists bp loader,
    bp ∈ bps /\ bp_jinja_loader bp = Some loader /\
    n ∈ loader_deck_templates loader.
Proof.
  revert result. induction bps as [|bp bps IH]; intros result; simpl.
  - split; [by left|]. intros [?|(bp & l & Hbp & _)]; [done|].
    by apply elem_of_nil in Hbp.
  - destruct (bp_jinja_loader bp) as [l|] eqn:E.
    + rewrite IH, elem_of_foldl_add. split.
      * intros [[?|?]|(bp' & l' & ? & ? & ?)]; [by left| |].
        -- right. exists bp, l. split; [by left|done].
        -- right. exists bp', l'. split; [by right|done].
      * intros [?|(bp' & l' & Hin & Hl & Hn)]; [by left; left|].
        apply elem_of_cons in Hin as [->|Hin].
        -- rewrite E in Hl. injection Hl as <-. by left; right.
        -- right. by exists bp', l'.
    + rewrite IH. split.
      * intros [?|(bp' & l' & ? & ? & ?)]; [by left|].
        right. exists bp', l'. split; [by right|done].
      * intros [?|(bp' & l' & Hin & Hl & Hn)]; [by left|].
        apply elem_of_cons in Hin as [->|Hin]; [congruence|].
        right. by exists bp', l'.
Qed.

(** The set [deck_templates] has built when it reaches its [return]
    statement holds every name that the application's loader or some
    blueprint's loader lists, and nothing else. *)
Lemma elem_of_deck_templates_result a n :
  n ∈ deck_templates_result a <->
  (exists loader,
     jinja_loader a = Some loader /\ n ∈ loader_deck_templates loader) \/
  (exists bp loader,
     bp ∈ iter_blueprints a /\ bp_jinja_loader bp = Some loader /\
     n ∈ loader_deck_templates loader).
Proof.
  unfold deck_templates_result. rewrite elem_of_deck_loop.
  destruct (jinja_loader a) as [l|].
  - rewrite elem_of_union, elem_of_list_to_set. split.
    + intros [[H|H]|H]; [by apply elem_of_empty in H| |by right].
      left. by exists l.
    + intros [(l' & [= <-] & H)|H]; [by left; right|by right].
  - split.
    + intros [H|H]; [by apply elem_of_empty in H|by right].
    + intros [(l' & ? & _)|H]; [done|by right].
Qed.

(** The [return] statement of [deck_templates] raises, for every
    application. *)
Lemma deck_templates_raises a :
  deck_templates a = inl (NameError "deck").
Proof. reflexivity. Qed.

(** ** The environment wrapper *)

(** C9.  Constructed without a [loader] option, the environment has the
    dispatching loader of the owning application as its loader, and is
    otherwise what the engine's construction makes of the options;
    constructed with a [loader] option, it is exactly what the engine's
    construction makes of the options as given, the supplied loader
    included.  In both cases the wrapper records the application. *)
Theorem Environment_init_loader (a : App) (options : gmap string optval) :
  env_app (Environment_init a options) = Some a /\
  (options !! "loader" = None ->
     env_loader (Environment_init a options) =
       Some (OptLoader (DispatchingJinjaLoader a)) /\
     env_options (Environment_init a options) =
       env_options
         (BaseEnvironment_init
            (<["loader" := OptLoader (DispatchingJinjaLoader a)]> options)) /\
     (forall k, k <> "loader" ->
        env_options (Environment_init a options) !! k = options !! k)) /\
  (forall v,
     options !! "loader" = Some v ->
     env_options (Environment_init a options) =
       env_options (BaseEnvironment_init options) /\
     env_loader (Environment_init a options) = Some v).
Proof.
  unfold Environment_init, env_loader, create_global_jinja_loader. simpl.
  split; [done|]. split.
  - intros ->. split; [apply lookup_insert_eq|]. split; [done|].
    intros k Hk. by apply lookup_insert_ne.
  - intros v Hv. by rewrite Hv.
Qed.

(** ** The render functions *)

Lemma bind_ret_l {A B} (x : A) (k : A -> M B) : bind (ret x) k = k x.
Proof. unfold bind, ret. by destruct (k x). Qed.

Lemma outcome_bind {A B} (m : M A) (k : A -> M B) :
  outcome (bind m k) =
  match outcome m with
  | inl e => inl e
  | inr x => outcome (k x)
  end.
Proof. destruct m as [tr [e|x]]; [done|]. simpl. by destruct (k x). Qed.

Lemma outcome_try_not_found {A} (m handler : M A) :
  outcome (try_not_found m handler) =
  match outcome m with
  | inl e => if is_not_found e then outcome handler else inl e
  | inr x => inr x
  end.
Proof.
  destruct m as [tr [e|x]]; [|done]. simpl.
  destruct (is_not_found e); [|done]. by destruct handler.
Qed.

Lemma get_template_jinja_env a name :
  get_template (jinja_env a) name =
  (src <- DispatchingJinjaLoader_get_source a name ;; ret (compile name src)).
Proof. reflexivity. Qed.

Lemma get_template_outcome a name :
  outcome (get_template (jinja_env a) name) =
  match first_resolved name (_iter_loaders a name) with
  | Some s => inr (compile name s)
  | None => inl (TemplateNotFound name)
  end.
Proof.
  rewrite get_template_jinja_env, outcome_bind, get_source_outcome.
  by destruct (first_resolved name (_iter_loaders a name)).
Qed.

Lemma select_loop_first a all pre n post s :
  Forall (missing a) pre ->
  first_resolved n (_iter_loaders a n) = Some s ->
  outcome (select_loop (jinja_env a) all (pre ++ n :: post)) =
  inr (compile n s).
Proof.
  intros Hpre Hn. induction Hpre as [|m pre Hm _ IH]; simpl.
  - by rewrite outcome_try_not_found, get_template_outcome, Hn.
  - rewrite outcome_try_not_found, get_template_outcome.
    apply first_resolved_None in Hm. by rewrite Hm.
Qed.

Lemma select_loop_all_missing a all names :
  Forall (missing a) names ->
  outcome (select_loop (jinja_env a) all names) = inl (TemplatesNotFound all).
Proof.
  induction 1 as [|m names Hm _ IH]; simpl; [done|].
  rewrite outcome_try_not_found, get_template_outcome.
  apply first_resolved_None in Hm. by rewrite Hm.
Qed.

Lemma render_run G template context app :
  _render G template context app =
  (bracketed_render G app template context, inr (render template context)).
Proof.
  unfold _render, send, call_render, bracketed_render, notifications.
  simpl. by rewrite app_nil_r.
Qed.

Lemma render_template_run G n kw c :
  _app_context_stack_top G = Some c ->
  render_template G n kw =
  (template <- get_or_select_template (jinja_env (ctx_app (updated c))) n ;;
   _render G template (PyAppContext (updated c)) (ctx_app (updated c))).
Proof.
  intros Htop. unfold render_template, app_context_stack_top.
  rewrite Htop. cbv zeta. unfold update_template_context, getattr_app.
  by rewrite !bind_ret_l.
Qed.


(** The keyword arguments of a render call never reach the template: the
    result of the call is the same whatever they are. *)
Lemma render_template_kwargs_unused G n kw1 kw2 :
  render_template G n kw1 = render_template G n kw2.
Proof. reflexivity. Qed.

Lemma render_template_string_kwargs_unused G source kw1 kw2 :
  render_template_string G source kw1 = render_template_string G source kw2.
Proof. reflexivity. Qed.

(** C7.  With an application context active, render-by-name on a list of
    names renders the first name of the list that some candidate loader
    resolves, from the source the first such loader returns; when no loader
    resolves any name of the list it raises the engine's template-not-found
    error for the list. *)
Theorem render_template_first_existing (G : Globals) (c : AppContext)
    (names : list string) (kw : gmap string V) :
  _app_context_stack_top G = Some c ->
  (forall pre n post s,
     names = pre ++ n :: post ->
     Forall (missing (ctx_app (updated c))) pre ->
     first_resolved n (_iter_loaders (ctx_app (updated c)) n) = Some s ->
     outcome (render_template G (Deck names) kw) =
       inr (render (compile n s) (PyAppContext (updated c)))) /\
  (Forall (missing (ctx_app (updated c))) names ->
     outcome (render_template G (Deck names) kw) =
       inl (TemplatesNotFound names) /\
     is_not_found (TemplatesNotFound names) = true).
Proof.
  intros Htop. rewrite (render_template_run _ _ _ _ Htop), outcome_bind.
  unfold get_or_select_template, select_template. split.
  - intros pre n post s -> Hpre Hn.
    rewrite (select_loop_first _ _ _ _ _ s Hpre Hn).
    by rewrite render_run.
  - intros Hall. by rewrite (select_loop_all_missing _ _ _ Hall).
Qed.

Lemma trace_bind {A B} (m : M A) (k : A -> M B) :
  trace (bind m k) =
  trace m ++ match outcome m with
             | inl _ => []
             | inr x => trace (k x)
             end.
Proof.
  destruct m as [tr [e|x]]; simpl; [by rewrite app_nil_r|].
  by destruct (k x).
Qed.



Lemma get_source_events_lookup template loaders :
  Forall is_lookup_event (get_source_events template loaders).
Proof. apply Forall_fmap, Forall_true. by intros []. Qed.

Lemma fast_loop_lookup_events template loaders :
  Forall is_lookup_event (trace (fast_loop template loaders)).
Proof.
  induction loaders as [|[src loader] rest IH]; [constructor|].
  simpl. destruct (get_source loader template).
  - by repeat constructor.
  - destruct (fast_loop template rest) as [tr r]. simpl in *.
    by constructor.
Qed.

Lemma get_source_lookup_events a template :
  Forall is_lookup_event (trace (DispatchingJinjaLoader_get_source a template)).
Proof.
  unfold DispatchingJinjaLoader_get_source.
  destruct (EXPLAIN_TEMPLATE_LOADING a).
  - rewrite get_source_explained_run. simpl. apply Forall_app. split.
    + apply get_source_events_lookup.
    + by repeat constructor.
  - apply fast_loop_lookup_events.
Qed.

Lemma get_template_lookup_events a name :
  Forall is_lookup_event (trace (get_template (jinja_env a) name)).
Proof.
  rewrite get_template_jinja_env, trace_bind. apply Forall_app. split.
  - apply get_source_lookup_events.
  - destruct (outcome (DispatchingJinjaLoader_get_source a name));
      constructor.
Qed.




(** ** Further properties of the code *)

Lemma first_resolved_app template l1 l2 :
  first_resolved template (l1 ++ l2) =
  match first_resolved template l1 with
  | Some s => Some s
  | None => first_resolved template l2
  end.
Proof.
  induction l1 as [|[src loader] l1 IH]; [done|].
  simpl. rewrite !first_resolved_cons.
  by destruct (get_source loader template).
Qed.

Lemma first_resolved_attempts template loaders :
  head (omap (fun at_ : attempt => at_.2) (attempt_of template <$> loaders)) =
  first_resolved template loaders.
Proof.
  induction loaders as [|[src loader] rest IH]; [done|].
  rewrite first_resolved_cons. simpl.
  by destruct (get_source loader template).
Qed.

Lemma blueprint_loaders_elem src l bps :
  (src, l) ∈ blueprint_loaders bps <->
  exists bp, src = SrcBlueprint bp /\ bp ∈ bps /\ bp_jinja_loader bp = Some l.
Proof.
  induction bps as [|b bps IH]; simpl.
  - split; [by intros ?%elem_of_nil|].
    by intros (bp & _ & ?%elem_of_nil & _).
  - destruct (bp_jinja_loader b) as [l'|] eqn:E.
    + rewrite elem_of_cons, IH. split.
      * intros [[= -> ->]|(bp & -> & Hin & Hl)].
        -- exists b. split; [done|]. split; [by left|done].
        -- exists bp. split; [done|]. split; [by right|done].
      * intros (bp & -> & Hin & Hl).
        apply elem_of_cons in Hin as [->|Hin].
        -- left. rewrite E in Hl. by injection Hl as ->.
        -- right. by exists bp.
    + rewrite IH. split.
      * intros (bp & -> & Hin & Hl). exists bp.
        split; [done|]. split; [by right|done].
      * intros (bp & -> & Hin & Hl).
        apply elem_of_cons in Hin as [->|Hin]; [congruence|].
        by exists bp.
Qed.

Lemma blueprint_loaders_length bps :
  length (blueprint_loaders bps) <= length bps.
Proof.
  induction bps as [|b bps IH]; simpl; [done|].
  destruct (bp_jinja_loader b); simpl; lia.
Qed.

Lemma blueprint_loaders_none bps :
  Forall (fun bp => bp_jinja_loader bp = None) bps ->
  blueprint_loaders bps = [].
Proof.
  induction 1 as [|b bps Hb _ IH]; [done|]. simpl. by rewrite Hb.
Qed.

Lemma fast_loop_calls template loaders :
  exists k,
    trace (fast_loop template loaders) =
      get_source_events template (take k loaders) /\
    (forall e, outcome (fast_loop template loaders) = inl e ->
               k = length loaders).
Proof.
  induction loaders as [|[src loader] rest (k & Htr & Hk)].
  - by exists 0.
  - simpl. destruct (get_source loader template) as [s|].
    + exists 1. split; [done|]. intros e. discriminate.
    + destruct (fast_loop template rest) as [tr r]. simpl in *.
      exists (S k). split; [by rewrite Htr|].
      intros e He. by rewrite (Hk e He).
Qed.

(** The default context processor injects [g] exactly when an application
    context is active, and [request] and [session], always together,
    exactly when a request context is active; it injects no other name,
    and nothing at all when neither context is active. *)
Theorem default_context_injects (G : Globals) :
  (forall k, is_Some (_default_template_context_processor G !! k) ->
             k = "g" \/ k = "request" \/ k = "session") /\
  _default_template_context_processor G !! "g" =
    ctx_g <$> _app_context_stack_top G /\
  _default_template_context_processor G !! "request" =
    ctx_request <$> _request_context_stack_top G /\
  _default_template_context_processor G !! "session" =
    ctx_session <$> _request_context_stack_top G /\
  (_default_template_context_processor G = ∅ <->
   _app_context_stack_top G = None /\ _request_context_stack_top G = None).
Proof.
  unfold _default_template_context_processor.
  destruct (_app_context_stack_top G) as [ac|],
    (_request_context_stack_top G) as [rc|]; simpl.
  all: split;
    [ intros k; rewrite ?lookup_insert; repeat case_decide; subst; auto;
      rewrite lookup_empty; by intros [? ?] | ].
  all: split; [ by rewrite ?lookup_insert; repeat case_decide | ].
  all: split; [ by rewrite ?lookup_insert; repeat case_decide | ].
  all: split; [ by rewrite ?lookup_insert; repeat case_decide | ].
  - split; [intros H; by apply insert_non_empty in H | by intros [? ?]].
  - split; [intros H; by apply insert_non_empty in H | by intros [? ?]].
  - split; [intros H; by apply insert_non_empty in H | by intros [? ?]].
  - done.
Qed.

(** A candidate of a lookup is attributed to the object that owns its
    loader: the pair of the application and its loader, or the pair of a
    registered blueprint and that blueprint's loader; every loader there is
    occurs, and a blueprint without a loader never does.  There are at most
    one more candidates than blueprints. *)
Theorem iter_loaders_attribution (a : App) (template : string)
    (src : srcobj) (l : Loader) :
  ((src, l) ∈ _iter_loaders a template <->
   (src = SrcApp a /\ jinja_loader a = Some l) \/
   (exists bp, src = SrcBlueprint bp /\ bp ∈ iter_blueprints a /\
               bp_jinja_loader bp = Some l)) /\
  length (_iter_loaders a template) <= S (length (iter_blueprints a)).
Proof.
  unfold _iter_loaders. split.
  - rewrite elem_of_app, blueprint_loaders_elem.
    destruct (jinja_loader a) as [l'|].
    + rewrite list_elem_of_singleton. split.
      * intros [[= -> ->]|H]; [by left|by right].
      * intros [[-> [= ->]]|H]; [by left|by right].
    + split.
      * intros [?%elem_of_nil|H]; [done|by right].
      * intros [[_ ?]|H]; [done|by right].
  - rewrite length_app. pose proof (blueprint_loaders_length (iter_blueprints a)).
    destruct (jinja_loader a); simpl; lia.
Qed.

(** The fast path calls the loaders of an initial segment of the
    candidates and nothing else: it never calls the diagnostic reporter,
    it has called every candidate when it raises, and the calls it makes
    are the first calls the diagnostic path makes. *)
Theorem get_source_fast_calls_prefix (a : App) (template : string) :
  exists k,
    trace (_get_source_fast a template) =
      get_source_events template (take k (_iter_loaders a template)) /\
    (forall e, outcome (_get_source_fast a template) = inl e ->
               k = length (_iter_loaders a template)) /\
    trace (_get_source_fast a template) `prefix_of`
      trace (_get_source_explained a template).
Proof.
  unfold _get_source_fast.
  destruct (fast_loop_calls template (_iter_loaders a template))
    as (k & Htr & Hk).
  exists k. split; [done|]. split; [done|].
  rewrite Htr, get_source_explained_run. simpl.
  exists (get_source_events template (drop k (_iter_loaders a template)) ++
          [EvExplain a template
             (attempt_of template <$> _iter_loaders a template)]).
  rewrite app_assoc. f_equal. unfold get_source_events.
  by rewrite <- fmap_app, take_drop.
Qed.

(** What the diagnostic path returns agrees with what it reports: the
    result is the source of the first reported attempt that succeeded, and
    the lookup raises exactly when every reported attempt failed. *)
Theorem get_source_explained_agrees_with_report (a a' : App)
    (template template' : string) (attempts : list attempt) :
  EvExplain a' template' attempts ∈ trace (_get_source_explained a template) ->
  a' = a /\ template' = template /\
  outcome (_get_source_explained a template) =
    match head (omap (fun at_ : attempt => at_.2) attempts) with
    | Some s => inr s
    | None => inl (TemplateNotFound template)
    end.
Proof.
  rewrite get_source_explained_run. simpl.
  intros [Hin|Hin]%elem_of_app.
  - unfold get_source_events in Hin.
    apply list_elem_of_fmap in Hin as (c & Hc & _). discriminate.
  - apply list_elem_of_singleton in Hin. injection Hin as -> -> ->.
    by rewrite first_resolved_attempts.
Qed.

(** An application without a loader, none of whose blueprints has one:
    every lookup raises [TemplateNotFound] without calling any loader, and
    the diagnostic path reports an empty list of attempts before it
    raises. *)
Theorem no_loaders_nothing_found (a : App) (template : string) :
  jinja_loader a = None ->
  Forall (fun bp => bp_jinja_loader bp = None) (iter_blueprints a) ->
  _get_source_fast a template = ([], inl (TemplateNotFound template)) /\
  _get_source_explained a template =
    ([EvExplain a template []], inl (TemplateNotFound template)).
Proof.
  intros Hl Hb. split.
  - unfold _get_source_fast, _iter_loaders.
    by rewrite Hl, (blueprint_loaders_none _ Hb).
  - rewrite get_source_explained_run. unfold _iter_loaders.
    by rewrite Hl, (blueprint_loaders_none _ Hb).
Qed.

(** Registering further blueprints after the existing ones never changes
    the resolution of a name that was already resolved; a name that was not
    resolved is then resolved by the new blueprints alone, in their
    order. *)
Theorem later_blueprints_do_not_shadow (a a' : App)
    (extra : list Blueprint) (template : string) :
  jinja_loader a' = jinja_loader a ->
  iter_blueprints a' = iter_blueprints a ++ extra ->
  (forall s,
     outcome (DispatchingJinjaLoader_get_source a template) = inr s ->
     outcome (DispatchingJinjaLoader_get_source a' template) = inr s) /\
  (outcome (DispatchingJinjaLoader_get_source a template) =
     inl (TemplateNotFound template) ->
   outcome (DispatchingJinjaLoader_get_source a' template) =
     match first_resolved template (blueprint_loaders extra) with
     | Some s => inr s
     | None => inl (TemplateNotFound template)
     end).
Proof.
  intros Hl Hb. rewrite !get_source_outcome.
  assert (first_resolved template (_iter_loaders a' template) =
          first_resolved template
            (_iter_loaders a template ++ blueprint_loaders extra)) as ->.
  { apply first_resolved_loaders. unfold _iter_loaders.
    rewrite Hl, Hb, blueprint_loaders_app, !fmap_app.
    rewrite app_assoc. do 2 f_equal. by destruct (jinja_loader a). }
  rewrite first_resolved_app.
  destruct (first_resolved template (_iter_loaders a template)) as [s0|];
    split; intros; congruence.
Qed.

(** The environment's constructor keeps every option it is given, the
    value under [loader] included whatever it is; the environment it makes
    always has a [loader] option; and constructing again from the options
    of the result makes the same environment. *)
Theorem Environment_init_keeps_options (a : App)
    (options : gmap string optval) :
  options ⊆ env_options (Environment_init a options) /\
  is_Some (env_loader (Environment_init a options)) /\
  Environment_init a (env_options (Environment_init a options)) =
    Environment_init a options.
Proof.
  unfold Environment_init, env_loader, create_global_jinja_loader. simpl.
  destruct (options !! "loader") as [v|] eqn:E.
  - rewrite E. split; [done|]. split; [by exists v|done].
  - rewrite lookup_insert_eq. split; [by apply insert_subseteq|].
    split; [by eexists|done].
Qed.

(** With an application context active, render-by-name on a single name
    that no candidate loader resolves raises [TemplateNotFound] for that
    name after the lookup alone, with no notification sent and nothing
    rendered; on a name that is resolved it returns the engine's rendering
    of the first resolving loader's source against the context object the
    function holds. *)
Theorem render_template_single_name (G : Globals) (c : AppContext)
    (name : string) (kw : gmap string V) :
  _app_context_stack_top G = Some c ->
  (missing (ctx_app (updated c)) name ->
     outcome (render_template G (Name name) kw) =
       inl (TemplateNotFound name) /\
     Forall is_lookup_event (trace (render_template G (Name name) kw))) /\
  (forall s,
     first_resolved name (_iter_loaders (ctx_app (updated c)) name) = Some s ->
     outcome (render_template G (Name name) kw) =
       inr (render (compile name s) (PyAppContext (updated c)))).
Proof.
  intros Htop. rewrite (render_template_run _ _ _ _ Htop).
  rewrite outcome_bind, trace_bind.
  unfold get_or_select_template. rewrite get_template_outcome. split.
  - intros Hmiss. apply first_resolved_None in Hmiss. rewrite Hmiss.
    split; [done|]. rewrite app_nil_r. apply get_template_lookup_events.
  - intros s ->. by rewrite render_run.
Qed.

End Templating.

(** ** A worked instance

    A shop application with three blueprints, a toy engine whose templates
    are their source text, and the module state of one request. *)

Definition ex_compile (name source : string) : string := source.

Definition ex_from_string (source : string) : string := source.

(** Rendering shows the template, then what the context gives for the
    variable [request]. *)
Definition ex_render (template : string)
    (context : pyobj (V := string) (Source := string)) : string :=
  template +:+ "|" +:+
  match context with
  | PyDict d => default "" (d !! "request")
  | PyAppContext _ => "AppContext"
  | PyNone => "None"
  end.

Definition ex_update_other (a : App (Source := string))
    (c : AppContext (V := string) (Source := string)) : AppContext := c.

Definition loader_of (files : list (string * string))
  : Loader (Source := string) :=
  {| get_source := fun name => (list_to_map files : gmap string string) !! name;
     loader_deck_templates := files.*1 |}.

Definition shop_loader : Loader (Source := string) :=
  loader_of [("index.html", "shop index"); ("layout.html", "shop layout")].

Definition admin_loader : Loader (Source := string) :=
  loader_of [("x", "admin x"); ("layout.html", "admin layout")].

Definition blog_loader : Loader (Source := string) :=
  loader_of [("x", "blog x"); ("post.html", "blog post")].

Definition admin_bp : Blueprint (Source := string) :=
  {| bp_name := "admin"; bp_jinja_loader := Some admin_loader |}.

Definition api_bp : Blueprint (Source := string) :=
  {| bp_name := "api"; bp_jinja_loader := None |}.

Definition blog_bp : Blueprint (Source := string) :=
  {| bp_name := "blog"; bp_jinja_loader := Some blog_loader |}.

Definition shop : App (Source := string) :=
  {| jinja_loader := Some shop_loader;
     iter_blueprints := [admin_bp; api_bp; blog_bp];
     EXPLAIN_TEMPLATE_LOADING := false |}.

(** The same application without blueprints. *)
Definition kiosk : App (Source := string) :=
  {| jinja_loader := Some shop_loader;
     iter_blueprints := [];
     EXPLAIN_TEMPLATE_LOADING := false |}.

Definition shop_ctx : AppContext (V := string) (Source := string) :=
  {| ctx_app := shop; ctx_g := "g" |}.

Definition kiosk_ctx : AppContext (V := string) (Source := string) :=
  {| ctx_app := kiosk; ctx_g := "g" |}.

Definition ex_request : RequestContext (V := string) :=
  {| ctx_request := "the request"; ctx_session := "the session" |}.

Definition ex_receivers (sig : signal) : list string :=
  match sig with
  | before_render_template => ["audit"; "metrics"]
  | template_rendered => ["metrics"]
  end.

Definition shop_globals : Globals (V := string) (Source := string) :=
  {| _app_context_stack_top := Some shop_ctx;
     _request_context_stack_top := Some ex_request;
     receivers := ex_receivers |}.

Definition kiosk_globals : Globals (V := string) (Source := string) :=
  {| _app_context_stack_top := Some kiosk_ctx;
     _request_context_stack_top := Some ex_request;
     receivers := ex_receivers |}.

(** The keyword arguments of the call [render_template(..., request="mine")]. *)
Definition ex_kwargs : gmap string string := {["request" := "mine"]}.

(** What the merge of the injected variables with these keyword arguments
    is: the caller's [request], and the injected [g] and [session]. *)
Example merged_context_of_kwargs :
  update_template_context ex_update_other shop_globals shop (PyDict ex_kwargs)
  = PyDict (<["request" := "mine"]>
              (<["session" := "the session"]> (<["g" := "g"]> ∅))).
Proof. vm_compute. reflexivity. Qed.

(** The blueprints [admin] and [blog], registered in that order, both have
    a template [x]; the application's loader has none.  The first
    candidate that resolves [x] is [admin]'s. *)
Lemma shop_x_is_admin_x :
  outcome (_get_source_fast (V := string) (Template := string) shop "x") =
  inr "admin x".
Proof.
  apply (proj2 (proj2 (proj2
           (iter_loaders_order_first_wins (V := string) (Template := string)
              shop "x")))
         [] admin_bp admin_loader [api_bp; blog_bp] "admin x").
  - intros l [= <-]. reflexivity.
  - reflexivity.
  - constructor.
  - reflexivity.
  - reflexivity.
Defined.

(** The shop with the flag set, and a name that none of its loaders has:
    three loader calls, then the reporter with three failed attempts, and
    the lookup raises. *)
Lemma shop_explains_every_failure :
  trace
    (DispatchingJinjaLoader_get_source (V := string) (Template := string)
       (set_explain true shop) "nope") =
    [ EvGetSource shop_loader "nope";
      EvGetSource admin_loader "nope";
      EvGetSource blog_loader "nope";
      EvExplain (set_explain true shop) "nope"
        [ (shop_loader, SrcApp (set_explain true shop), None);
          (admin_loader, SrcBlueprint admin_bp, None);
          (blog_loader, SrcBlueprint blog_bp, None) ] ] /\
  outcome
    (DispatchingJinjaLoader_get_source (V := string) (Template := string)
       (set_explain true shop) "nope") =
    inl (TemplateNotFound "nope").
Proof.
  pose proof (get_source_explained_attempts (V := string) (Template := string)
                (set_explain true shop) "nope" eq_refl)
    as (_ & Htrace & _ & _ & _ & Hfail).
  split; [exact Htrace|].
  apply Hfail. repeat constructor.
Defined.

Lemma shop_nope_not_found :
  outcome
    (DispatchingJinjaLoader_get_source (V := string) (Template := string)
       shop "nope") =
  inl (TemplateNotFound "nope").
Proof.
  apply (proj1 (get_source_not_found_iff (V := string) (Template := string)
                  shop "nope")).
  repeat constructor.
Defined.

(** Constructing the shop's environment: without options, and with an
    explicit loader. *)
Lemma shop_environment_loader :
  env_loader (Environment_init (V := string) shop ∅) =
    Some (OptLoader (DispatchingJinjaLoader shop)) /\
  env_loader
    (Environment_init (V := string) shop
       {["loader" := OptLoader (OtherLoader blog_loader)]}) =
    Some (OptLoader (OtherLoader blog_loader)).
Proof.
  split.
  - apply (proj1 (proj2 (Environment_init_loader (V := string) shop ∅))).
    reflexivity.
  - apply (proj2 (proj2 (Environment_init_loader (V := string) shop
                     {["loader" := OptLoader (OtherLoader blog_loader)]}))
             (OptLoader (OtherLoader blog_loader))).
    reflexivity.
Defined.

(** [render_template(["missing1", "missing2", "x"])] renders [x]. *)
Lemma shop_renders_first_existing :
  outcome
    (render_template ex_compile ex_render ex_update_other shop_globals
       (Deck ["missing1"; "missing2"; "x"]) ∅) =
  inr (ex_render "admin x" (PyAppContext shop_ctx)).
Proof.
  apply (proj1 (render_template_first_existing ex_compile ex_render
                  ex_update_other shop_globals shop_ctx
                  ["missing1"; "missing2"; "x"] ∅ eq_refl)
           ["missing1"; "missing2"] "x" [] "admin x").
  - reflexivity.
  - repeat constructor.
  - reflexivity.
Defined.


(** With the diagnostic flag set, the shop resolves [x] as before. *)
Lemma shop_x_explained_is_admin_x :
  outcome
    (DispatchingJinjaLoader_get_source (V := string) (Template := string)
       (set_explain true shop) "x") =
  inr "admin x".
Proof.
  rewrite (proj2 (proj2
             (get_source_fast_explained_agree (V := string)
                (Template := string) shop "x")) true).
  reflexivity.
Defined.

(** ** Where the listing departs from the specification *)

(** C4.  [deck_templates()] on the shop: the set the method builds holds
    the four names its loaders list, [layout.html], which two of them
    list, among them once; but the [return] statement calls the unbound
    name [deck], so the call raises [NameError] and returns no listing.
    The same holds for the application without blueprints. *)
Theorem deck_templates_name_error :
  deck_templates shop = inl (NameError "deck") /\
  deck_templates kiosk = inl (NameError "deck") /\
  "layout.html" ∈ deck_templates_result shop /\
  size (deck_templates_result shop) = 4.
Proof.
  split; [reflexivity|]. split; [reflexivity|]. split.
  - apply elem_of_deck_templates_result. left. exists shop_loader.
    split; [reflexivity|]. apply list_elem_of_further, list_elem_of_here.
  - vm_compute. reflexivity.
Qed.

(** ** Where the render functions depart from the specification *)

(** C1.  The call [render_template("index.html", request="mine")] in the
    shop, and the call [render_template_string("Hello", request="mine")]:
    the template is rendered with the application context object, not with
    the merge of the injected variables and the keyword arguments, in which
    [request] would be the caller's value. *)
Theorem render_template_drops_caller_context :
  outcome
    (render_template ex_compile ex_render ex_update_other shop_globals
       (Name "index.html") ex_kwargs) =
    inr (ex_render "shop index" (PyAppContext shop_ctx)) /\
  outcome
    (render_template_string ex_from_string ex_render ex_update_other
       shop_globals "Hello" ex_kwargs) =
    inr (ex_render "Hello" (PyAppContext shop_ctx)) /\
  ex_render "shop index" (PyAppContext shop_ctx) = "shop index|AppContext" /\
  ex_render "shop index"
    (update_template_context ex_update_other shop_globals shop
       (PyDict ex_kwargs)) = "shop index|mine".
Proof. repeat split; vm_compute; reflexivity. Qed.

(** C6.  An application without blueprints whose loader has
    [index.html]: [render_template("index.html", request="mine")] renders
    the source that loader returns, but with the application context
    object and not with the merged context. *)
Theorem render_template_single_app :
  get_source shop_loader "index.html" = Some "shop index" /\
  outcome
    (render_template ex_compile ex_render ex_update_other kiosk_globals
       (Name "index.html") ex_kwargs) =
    inr (ex_render "shop index" (PyAppContext kiosk_ctx)) /\
  ex_render "shop index" (PyAppContext kiosk_ctx) = "shop index|AppContext" /\
  ex_render "shop index"
    (update_template_context ex_update_other kiosk_globals kiosk
       (PyDict ex_kwargs)) = "shop index|mine".
Proof. repeat split; vm_compute; reflexivity. Qed.

(** ** Further instances *)

(** An application with no loader of its own and one blueprint without a
    loader. *)
Definition bare : App (Source := string) :=
  {| jinja_loader := None;
     iter_blueprints := [api_bp];
     EXPLAIN_TEMPLATE_LOADING := true |}.

Definition news_loader : Loader (Source := string) :=
  loader_of [("x", "news x"); ("news.html", "news index")].

Definition news_bp : Blueprint (Source := string) :=
  {| bp_name := "news"; bp_jinja_loader := Some news_loader |}.

(** The shop after one more blueprint was registered. *)
Definition shop_with_news : App (Source := string) :=
  {| jinja_loader := Some shop_loader;
     iter_blueprints := [admin_bp; api_bp; blog_bp; news_bp];
     EXPLAIN_TEMPLATE_LOADING := false |}.

Lemma shop_x_report_agrees :
  outcome
    (_get_source_explained (V := string) (Template := string) shop "x") =
  inr "admin x".
Proof.
  refine (proj2 (proj2
            (get_source_explained_agrees_with_report (V := string)
               (Template := string) shop shop "x" "x"
               (attempt_of "x" <$> _iter_loaders shop "x") _))).
  rewrite get_source_explained_run. apply elem_of_app. right. left.
Defined.

Lemma bare_finds_nothing :
  _get_source_fast (V := string) (Template := string) bare "index.html" =
    ([], inl (TemplateNotFound "index.html")) /\
  _get_source_explained (V := string) (Template := string) bare "index.html" =
    ([EvExplain bare "index.html" []],
     inl (TemplateNotFound "index.html")).
Proof.
  apply (no_loaders_nothing_found (V := string) (Template := string)
           bare "index.html").
  - reflexivity.
  - repeat constructor.
Defined.

Lemma shop_with_news_x_is_admin_x :
  outcome
    (DispatchingJinjaLoader_get_source (V := string) (Template := string)
       shop_with_news "x") =
  inr "admin x".
Proof.
  apply (proj1 (later_blueprints_do_not_shadow (V := string)
                  (Template := string) shop shop_with_news [news_bp] "x"
                  eq_refl eq_refl)).
  reflexivity.
Defined.

Lemma shop_nope_raises_unrendered :
  outcome
    (render_template ex_compile ex_render ex_update_other shop_globals
       (Name "nope") ∅) =
    inl (TemplateNotFound "nope") /\
  Forall is_lookup_event
    (trace
       (render_template ex_compile ex_render ex_update_other shop_globals
          (Name "nope") ∅)).
Proof.
  apply (proj1 (render_template_single_name ex_compile ex_render
                  ex_update_other shop_globals shop_ctx "nope" ∅ eq_refl)).
  repeat constructor.
Defined.
